(** * Safety-walks dashboard: the report computation of [app.py]

    [app.py] is a Streamlit script.  It reads the sheet "Export" of an
    uploaded workbook into a pandas frame, coerces the walks column, filters
    rows, and renders an overall section followed by one section per
    district.  The embedding follows the script statement by statement; the
    line numbers in the comments are those of [app.py].

    Data.
    - A frame is its column names and its rows.  A row carries the cells of
      the five columns the script reads.
    - The four text columns hold text or NaN and are columns of Python
      objects, as pandas reads a sheet column that holds some text; a
      column that is blank in every row, which pandas reads as a column of
      floats without the [.str] accessor, is outside the model.  A string
      is the sequence of its characters, each a code point below 256.
    - A cell of the walks column holds NaN, an integer or text.  Numbers
      are integers without bound: fractions, infinities and the 64 bits in
      which numpy keeps the counts are outside the model.
    - The target comes from a number input that admits 1 to 12.

    Effects.
    - The page is the sequence of Streamlit calls, in order.  A statement
      either returns or raises, and what was rendered before a raise stays
      on the page.
    - The widgets above the branch on the uploaded file (title, settings)
      are the same on every run and are left out; the three markdown calls
      that end the script are one widget.

    Library operations.
    - Python's [sorted], [str.split], [str.strip] and [str.startswith],
      and pandas' [notna], [unique], [fillna], [sum] and comparison of a
      column with a value are written out.
    - Two pandas operations are parameters, held to what pandas documents
      of them: the conversion of a text cell to a number ([pd.to_numeric]),
      and the order in which [DataFrame.sort_values], whose default
      algorithm (quicksort) is not stable, leaves rows with equal keys. *)

From Stdlib Require Import ZArith String Ascii List Bool Sorted Permutation Lia.
Import ListNotations.
Local Open Scope string_scope.
Local Open Scope list_scope.
Local Open Scope Z_scope.

(** ** Python string operations used by the script *)

Module PyStr.

(** [c in s] for a one-character [c]. *)
Fixpoint contains (c : ascii) (s : string) : bool :=
  match s with
  | EmptyString => false
  | String a rest => Ascii.eqb a c || contains c rest
  end.

(** [s.split(sep)] for a one-character separator: never the empty list. *)
Fixpoint split (sep : ascii) (s : string) : list string :=
  match s with
  | EmptyString => [EmptyString]
  | String a rest =>
      if Ascii.eqb a sep then EmptyString :: split sep rest
      else match split sep rest with
           | [] => [String a EmptyString]
           | w :: ws => String a w :: ws
           end
  end.

(** [str.isspace] on the characters below 256. *)
Definition isspace (a : ascii) : bool :=
  let n := nat_of_ascii a in
  ((9 <=? n) && (n <=? 13) || (28 <=? n) && (n <=? 32)
   || (n =? 133) || (n =? 160))%nat.

Fixpoint lstrip (s : string) : string :=
  match s with
  | EmptyString => EmptyString
  | String a rest => if isspace a then lstrip rest else s
  end.

(** Drops the trailing white space: a character stays when it is not white
    space or when something that stays follows it. *)
Fixpoint rstrip (s : string) : string :=
  match s with
  | EmptyString => EmptyString
  | String a rest =>
      match rstrip rest with
      | EmptyString => if isspace a then EmptyString else String a EmptyString
      | kept => String a kept
      end
  end.

(** [s.strip()] *)
Definition strip (s : string) : string := rstrip (lstrip s).

(** [s.startswith(p)], case-sensitive. *)
Definition startswith (s p : string) : bool := String.prefix p s.

End PyStr.

(** ** Cells, rows and frames *)

(** A cell of the walks column. *)
Inductive cell :=
| NaN
| Num (z : Z)
| Str (s : string).

(** A text cell: [None] is NaN. *)
Definition text := option string.

Record Row := {
  Unit_Name : text;        (* 'Unit # - Unit Name' *)
  Sector_Name : text;      (* 'Sector Name' *)
  District : text;         (* 'District' *)
  Unit_Type : text;        (* 'Unit Type' *)
  Walks_Completed : cell   (* '# of Safety Walks Completed YTD' *)
}.

Record DataFrame := {
  columns : list string;
  rows : list Row
}.

Definition COL_WALKS : string := "# of Safety Walks Completed YTD".
Definition COL_UNIT : string := "Unit # - Unit Name".
Definition COL_SECTOR : string := "Sector Name".
Definition COL_DISTRICT : string := "District".
Definition COL_TYPE : string := "Unit Type".

Definition has_column (df : DataFrame) (col : string) : bool :=
  existsb (String.eqb col) (columns df).

(** [pd.notna] *)
Definition notna (t : text) : bool :=
  match t with
  | Some _ => true
  | None => false
  end.

(** The strings [pd.read_excel] reads as NaN when called, as here, with its
    default [na_values] and [keep_default_na]; a blank cell reaches the
    parser as the empty string. *)
Definition STR_NA_VALUES : list string :=
  [ ""; "#N/A"; "#N/A N/A"; "#NA"; "-1.#IND"; "-1.#QNAN"; "-NaN"; "-nan";
    "1.#IND"; "1.#QNAN"; "<NA>"; "N/A"; "NA"; "NULL"; "NaN"; "None"; "n/a";
    "nan"; "null" ].

Definition is_na_string (s : string) : bool :=
  existsb (String.eqb s) STR_NA_VALUES.

(** A cell of the workbook as the Excel reader hands it to pandas. *)
Definition read_text (t : text) : text :=
  match t with
  | Some s => if is_na_string s then None else Some s
  | None => None
  end.

Definition read_cell (c : cell) : cell :=
  match c with
  | Str s => if is_na_string s then NaN else Str s
  | other => other
  end.

Definition read_row (r : Row) : Row :=
  {| Unit_Name := read_text (Unit_Name r);
     Sector_Name := read_text (Sector_Name r);
     District := read_text (District r);
     Unit_Type := read_text (Unit_Type r);
     Walks_Completed := read_cell (Walks_Completed r) |}.

(** [pd.read_excel(uploaded_file, sheet_name="Export")]: the sheet is given
    as a frame of raw cells, the header row is taken as it is. *)
Definition read_excel (sheet : DataFrame) : DataFrame :=
  {| columns := columns sheet; rows := map read_row (rows sheet) |}.

(** A row of the frame once the script has added the column 'Walks_YTD'. *)
Record Unit := {
  cells : Row;
  Walks_YTD : Z
}.

(** A row of the "behind target" table: the three columns selected at
    line 85. *)
Record BehindRow := {
  b_unit : text;
  b_type : text;
  b_walks : Z
}.

(** Rows in ascending order of the count. *)
Definition walks_le (a b : BehindRow) : Prop := b_walks a <= b_walks b.

(** ** The page *)

Inductive exn :=
| KeyError (key : string)
| TypeError
| ValueError
| StopException.

(** [StopException] derives from [BaseException], so [except Exception]
    lets it through. *)
Definition is_Exception (e : exn) : bool :=
  match e with
  | StopException => false
  | _ => true
  end.

Record figure := {
  sizes : list Z;
  labels : list string;
  title_name : string;
  title_actual : Z;
  title_target : Z;
  title_excess : option Z
}.

Inductive widget :=
| st_info
| st_warning
| st_error (e : exn)
| st_header (body : string)
| st_subheader (body : string)
| st_markdown
| st_metric (label : string) (value : Z)
| st_metric_ratio (label : string) (num den : Z)
| st_pyplot (fig : figure)
| st_expander (district : string) (num_units target actual : Z)
| st_dataframe (data : list BehindRow)
| st_success
| st_sidebar.

Inductive outcome (A : Type) :=
| Return (a : A)
| Raise (e : exn).
Arguments Return {A} a.
Arguments Raise {A} e.

(** A statement: what it renders, then how it ends. *)
Definition script (A : Type) : Type := (list widget * outcome A)%type.

Definition ret {A} (a : A) : script A := ([], Return a).
Definition raise {A} (e : exn) : script A := ([], Raise e).
Definition render (w : widget) : script unit := ([w], Return tt).

Definition bind {A B} (c : script A) (k : A -> script B) : script B :=
  match c with
  | (out, Return a) => let (out', r) := k a in (out ++ out', r)
  | (out, Raise e) => (out, Raise e)
  end.

Notation "x <- c ;; k" := (bind c (fun x => k))
  (at level 61, c at next level, right associativity).
Notation "c ;; k" := (bind c (fun _ => k))
  (at level 61, right associativity).

(** [for x in xs: body x] *)
Fixpoint for_each {A} (xs : list A) (body : A -> script unit) : script unit :=
  match xs with
  | [] => ret tt
  | x :: rest => body x ;; for_each rest body
  end.

(** [try: body  except Exception as e: st.error(...)] *)
Definition try_except (body : script unit) : script unit :=
  match body with
  | (out, Raise e) =>
      if is_Exception e then (out ++ [st_error e], Return tt)
      else (out, Raise e)
  | done => done
  end.

Definition page {A} (c : script A) : list widget := fst c.

(** [ax.pie(...)], [ax.set_title(...)], [st.pyplot(fig)]: matplotlib
    rejects a negative wedge size with ValueError.  (With a target of at
    least 1 the sizes of a chart never add up to zero.) *)
Definition st_pyplot_pie (fig : figure) : script unit :=
  if existsb (fun x => x <? 0) (sizes fig) then raise ValueError
  else render (st_pyplot fig).

(** ** Sorting *)

(** Python's [sorted(xs, key=...)] is stable, and a stable sort has one
    result: insertion from the right, a new element going in front of the
    first element whose key is not smaller. *)
Section StableSort.
Context {A K : Type} (leb : K -> K -> bool) (key : A -> K).

Fixpoint insert_by (x : A) (l : list A) : list A :=
  match l with
  | [] => [x]
  | y :: rest =>
      if leb (key x) (key y) then x :: l else y :: insert_by x rest
  end.

Definition sorted (l : list A) : list A := fold_right insert_by [] l.

(** The order the result is in. *)
Definition key_le (x y : A) : Prop := leb (key x) (key y) = true.
End StableSort.

(** [Series.unique()]: the distinct values in order of first appearance, all
    NaN counting as one value. *)
Definition text_eqb (a b : text) : bool :=
  match a, b with
  | Some x, Some y => String.eqb x y
  | None, None => true
  | _, _ => false
  end.

Fixpoint unique (l : list text) : list text :=
  match l with
  | [] => []
  | x :: rest => x :: filter (fun y => negb (text_eqb y x)) (unique rest)
  end.

(** The element-wise [==] of a column with a value: NaN equals nothing. *)
Definition series_eq (c district : text) : bool :=
  match c, district with
  | Some a, Some b => String.eqb a b
  | _, _ => false
  end.

(** [x.split('-')[-1].strip()] *)
Definition after_last_dash (s : string) : string :=
  PyStr.strip (last (PyStr.split "-"%char s) EmptyString).

(** The sort key of line 37:
    [x.split('-')[-1].strip() if pd.notna(x) and '-' in str(x) else str(x)] *)
Definition district_key (x : text) : string :=
  match x with
  | Some s => if PyStr.contains "-"%char s then after_last_dash s else s
  | None => "nan"
  end.

(** Line 73:
    [district.split('-')[-1].strip() if '-' in district else district];
    [in] raises TypeError on NaN, which is a float. *)
Definition dm_name (district : text) : script string :=
  match district with
  | Some s => ret (if PyStr.contains "-"%char s then after_last_dash s else s)
  | None => raise TypeError
  end.

(** [f"{district}"] *)
Definition format_text (x : text) : string :=
  match x with
  | Some s => s
  | None => "nan"
  end.

(** Lines 35-38. *)
Definition districts_of (df : list Unit) : list text :=
  sorted String.leb district_key (unique (map (fun u => District (cells u)) df)).

(** ** Aggregates and chart segments *)

Record Aggregate := {
  unitCount : Z;
  targetTotal : Z;
  actualTotal : Z
}.


(** The sum of a column of numbers over the rows of a frame. *)
Definition wsum (w : Unit -> Z) (df : list Unit) : Z :=
  fold_right (fun u acc => w u + acc) 0 df.

(** [df['Walks_YTD'].sum()] *)
Definition sum_walks (df : list Unit) : Z := wsum Walks_YTD df.

(** Lines 41-43 and 74-76. *)
Definition aggregate (group : list Unit) (current_period : Z) : Aggregate :=
  let num_units := Z.of_nat (length group) in
  {| unitCount := num_units;
     targetTotal := num_units * current_period;
     actualTotal := sum_walks group |}.

Definition completed_of (actual target : Z) : Z := Z.min actual target.
Definition remaining_of (actual target : Z) : Z := Z.max (target - actual) 0.
Definition excess_of (actual target : Z) : Z := Z.max (actual - target) 0.

(** Lines 53-65 and 95-107: the arguments of [ax.pie] and of
    [ax.set_title]. *)
Definition pie (name : string) (actual target : Z) : figure :=
  let completed := completed_of actual target in
  let remaining := remaining_of actual target in
  let excess := excess_of actual target in
  if 0 <? excess then
    {| sizes := [completed; excess];
       labels := ["On Target"; "Excess"];
       title_name := name; title_actual := actual; title_target := target;
       title_excess := Some excess |}
  else
    {| sizes := [completed; remaining];
       labels := ["Completed"; "Remaining"];
       title_name := name; title_actual := actual; title_target := target;
       title_excess := None |}.

(** The aggregates a page shows: one per district section, and the overall
    one read off the three metrics of the summary. *)
Definition district_aggregates (p : list widget) : list Aggregate :=
  flat_map (fun w =>
    match w with
    | st_expander _ n t a =>
        [{| unitCount := n; targetTotal := t; actualTotal := a |}]
    | _ => []
    end) p.

Definition metric_value (label : string) (p : list widget) : option Z :=
  match
    flat_map (fun w =>
      match w with
      | st_metric l v => if String.eqb l label then [v] else []
      | _ => []
      end) p
  with
  | v :: _ => Some v
  | [] => None
  end.

Definition overall_aggregate (p : list widget) : option Aggregate :=
  match metric_value "Total Units" p, metric_value "Target Walks" p,
        metric_value "Actual Walks Completed" p with
  | Some n, Some t, Some a =>
      Some {| unitCount := n; targetTotal := t; actualTotal := a |}
  | _, _, _ => None
  end.

Definition sum_Z (l : list Z) : Z := fold_right Z.add 0 l.

(** The districts of the sections of a page, in the order of the page. *)
Definition expander_names (p : list widget) : list string :=
  flat_map (fun w =>
    match w with
    | st_expander district _ _ _ => [district]
    | _ => []
    end) p.

(** ** The script *)

Section Dashboard.
(** [pd.to_numeric] on a text cell, cast to an integer: [None] when pandas
    does not read the text as a number. *)
Variable to_numeric_text : string -> option Z.
(** The one freedom of quicksort: the rearrangement of the rows from which
    rows with equal keys take their order. *)
Variable tie_order : list BehindRow -> list BehindRow.

(** [behind.sort_values('Walks_YTD')]: ascending by the count, rows with
    equal counts in the order [tie_order] gives them. *)
Definition sort_values (l : list BehindRow) : list BehindRow :=
  sorted Z.leb b_walks (tie_order l).

(** [pd.to_numeric(..., errors='coerce')]: [None] is NaN. *)
Definition to_numeric (c : cell) : option Z :=
  match c with
  | NaN => None
  | Num z => Some z
  | Str s => to_numeric_text s
  end.

Definition fillna (v : Z) (x : option Z) : Z :=
  match x with
  | Some z => z
  | None => v
  end.

(** Line 26; [astype(int)] leaves an integer as it is. *)
Definition add_Walks_YTD (r : Row) : Unit :=
  {| cells := r; Walks_YTD := fillna 0 (to_numeric (Walks_Completed r)) |}.

(** [df[col]] raises KeyError when the frame has no such column. *)
Definition getitem (df : DataFrame) (col : string) : script unit :=
  if has_column df col then ret tt else raise (KeyError col).

(** [Series.str.startswith('06-ESS', na=False)] *)
Definition is_ess (t : text) : bool :=
  match t with
  | Some s => PyStr.startswith s "06-ESS"
  | None => false
  end.

(** Line 26. *)
Definition with_Walks_YTD (frame : DataFrame) : list Unit :=
  map add_Walks_YTD (rows frame).

(** Line 27. *)
Definition keep_labelled (df : list Unit) : list Unit :=
  filter (fun u => notna (Unit_Name (cells u))) df.

(** Line 28. *)
Definition drop_ess (df : list Unit) : list Unit :=
  filter (fun u => negb (is_ess (Sector_Name (cells u)))) df.

(** Lines 26-32. *)
Definition clean (frame : DataFrame) : script (list Unit) :=
  getitem frame COL_WALKS ;;
  let df := with_Walks_YTD frame in
  getitem frame COL_UNIT ;;
  let df := keep_labelled df in
  getitem frame COL_SECTOR ;;
  let df := drop_ess df in
  match df with
  | [] => render st_warning ;; raise StopException
  | _ :: _ => ret df
  end.

(** Lines 41-68. *)
Definition overall_section (df : list Unit) (current_period : Z)
  : script unit :=
  let total := aggregate df current_period in
  render (st_header "Overall Summary (All Non-ESS Units)") ;;
  render (st_metric "Total Units" (unitCount total)) ;;
  render (st_metric "Target Walks" (targetTotal total)) ;;
  render (st_metric "Actual Walks Completed" (actualTotal total)) ;;
  render (st_metric_ratio "Compliance %"
            (actualTotal total) (targetTotal total)) ;;
  st_pyplot_pie
    (pie "Overall Progress" (actualTotal total) (targetTotal total)) ;;
  render st_markdown ;;
  render (st_header "District Manager Breakdown").

(** Line 72. *)
Definition group_of (df : list Unit) (district : text) : list Unit :=
  filter (fun u => series_eq (District (cells u)) district) df.

Definition behind_row (u : Unit) : BehindRow :=
  {| b_unit := Unit_Name (cells u);
     b_type := Unit_Type (cells u);
     b_walks := Walks_YTD u |}.

(** Lines 85-86, once the three columns are known to exist. *)
Definition behind (group : list Unit) (current_period : Z)
  : list BehindRow :=
  sort_values
    (map behind_row (filter (fun u => Walks_YTD u <? current_period) group)).

(** Lines 72-108: the body of the loop. *)
Definition district_section (frame : DataFrame) (df : list Unit)
    (current_period : Z) (district : text) : script unit :=
  let group := group_of df district in
  name <- dm_name district ;;
  let agg := aggregate group current_period in
  render (st_expander (format_text district)
            (unitCount agg) (targetTotal agg) (actualTotal agg)) ;;
  render (st_metric "Units" (unitCount agg)) ;;
  render (st_metric "Target" (targetTotal agg)) ;;
  render (st_metric "Actual" (actualTotal agg)) ;;
  getitem frame COL_TYPE ;;
  let table := behind group current_period in
  match table with
  | _ :: _ =>
      render (st_subheader "Units Behind Target") ;;
      render (st_dataframe table)
  | [] => render st_success
  end ;;
  st_pyplot_pie (pie name (actualTotal agg) (targetTotal agg)).

(** Lines 26-108: the body of [try]. *)
Definition report (frame : DataFrame) (current_period : Z) : script unit :=
  df <- clean frame ;;
  getitem frame COL_DISTRICT ;;
  let districts := districts_of df in
  overall_section df current_period ;;
  for_each districts (district_section frame df current_period).

(** Lines 21-122, from the uploaded sheet and the sidebar's number. *)
Definition main (uploaded_file : option DataFrame) (current_period : Z)
  : script unit :=
  match uploaded_file with
  | Some sheet => try_except (report (read_excel sheet) current_period)
  | None => render st_info ;; raise StopException
  end ;;
  render st_sidebar.
End Dashboard.

(** The records a run of the normalizer hands on: none when it raised. *)
Definition retained (c : script (list Unit)) : list Unit :=
  match snd c with
  | Return df => df
  | Raise _ => []
  end.

(** ** Two implementations of the pandas parameters *)

(** A text-to-number conversion that reads an optional sign followed by
    decimal digits, and nothing else. *)
Definition digit_of (a : ascii) : option Z :=
  let n := nat_of_ascii a in
  if ((48 <=? n) && (n <=? 57))%nat then Some (Z.of_nat n - 48) else None.

Fixpoint digits_from (acc : Z) (s : string) : option Z :=
  match s with
  | EmptyString => Some acc
  | String a rest =>
      match digit_of a with
      | Some d => digits_from (10 * acc + d) rest
      | None => None
      end
  end.

Definition decimal_text (s : string) : option Z :=
  match s with
  | EmptyString => None
  | String "-" (String _ _ as ds) => option_map Z.opp (digits_from 0 ds)
  | String "+" (String _ _ as ds) => digits_from 0 ds
  | String "-" EmptyString | String "+" EmptyString => None
  | _ => digits_from 0 s
  end.

(** Rows with equal counts stay in their order. *)
Definition input_order (l : list BehindRow) : list BehindRow := l.

(** Rows with equal counts come out in reverse order. *)
Definition reversed_order (l : list BehindRow) : list BehindRow := rev l.

(** ** Sample sheets *)

Definition ALL_COLUMNS : list string :=
  [COL_UNIT; COL_SECTOR; COL_DISTRICT; COL_TYPE; COL_WALKS].

Definition mk_row (unit sector district : string) (walks : cell) : Row :=
  {| Unit_Name := Some unit; Sector_Name := Some sector;
     District := Some district; Unit_Type := Some "Retail";
     Walks_Completed := walks |}.

(** The example of the specification: U2 is an ESS unit, the third row has
    no unit label. *)
Definition sheet_spec_example : DataFrame :=
  {| columns := ALL_COLUMNS;
     rows := [ mk_row "U1" "01-Ops" "D1-Smith" (Num 2);
               mk_row "U2" "06-ESS-Support" "D1-Smith" (Num 5);
               {| Unit_Name := None; Sector_Name := Some "01-Ops";
                  District := Some "D2-Jones"; Unit_Type := Some "Retail";
                  Walks_Completed := Num 1 |} ] |}.

(** One unit whose walks cell is the number -2. *)
Definition sheet_negative_walks : DataFrame :=
  {| columns := ALL_COLUMNS;
     rows := [ mk_row "U1" "01-Ops" "D1-Smith" (Num (-2)) ] |}.

(** Every unit is an ESS unit. *)
Definition sheet_only_ess : DataFrame :=
  {| columns := ALL_COLUMNS;
     rows := [ mk_row "U2" "06-ESS-Support" "D1-Smith" (Num 5) ] |}.

(** Two units of one district with the same count, below a target of 3. *)
Definition sheet_tied : DataFrame :=
  {| columns := ALL_COLUMNS;
     rows := [ mk_row "U1" "01-Ops" "D1-Smith" (Num 0);
               mk_row "U2" "01-Ops" "D1-Smith" (Num 0) ] |}.

(** U2 has no district. *)
Definition sheet_blank_district : DataFrame :=
  {| columns := ALL_COLUMNS;
     rows := [ mk_row "U1" "01-Ops" "D1-Smith" (Num 2);
               {| Unit_Name := Some "U2"; Sector_Name := Some "01-Ops";
                  District := None; Unit_Type := Some "Retail";
                  Walks_Completed := Num 4 |} ] |}.

Definition page_blank_district : list widget :=
  page (main decimal_text input_order (Some sheet_blank_district) 3).

(** Sheets without one of the columns. *)
Definition sheet_no_walks : DataFrame :=
  {| columns := [COL_UNIT; COL_SECTOR; COL_DISTRICT; COL_TYPE];
     rows := [ mk_row "U1" "01-Ops" "D1-Smith" NaN ] |}.

Definition sheet_no_unit : DataFrame :=
  {| columns := [COL_SECTOR; COL_DISTRICT; COL_TYPE; COL_WALKS];
     rows := [ mk_row "U1" "01-Ops" "D1-Smith" (Num 2) ] |}.

Definition sheet_no_sector : DataFrame :=
  {| columns := [COL_UNIT; COL_DISTRICT; COL_TYPE; COL_WALKS];
     rows := [ mk_row "U1" "01-Ops" "D1-Smith" (Num 2) ] |}.

Definition sheet_no_district : DataFrame :=
  {| columns := [COL_UNIT; COL_SECTOR; COL_TYPE; COL_WALKS];
     rows := [ mk_row "U1" "01-Ops" "D1-Smith" (Num 2) ] |}.

Definition sheet_no_district_only_ess : DataFrame :=
  {| columns := [COL_UNIT; COL_SECTOR; COL_TYPE; COL_WALKS];
     rows := [ mk_row "U2" "06-ESS-Support" "D1-Smith" (Num 5) ] |}.

Definition sheet_no_unit_type : DataFrame :=
  {| columns := [COL_UNIT; COL_SECTOR; COL_DISTRICT; COL_WALKS];
     rows := [ mk_row "U1" "01-Ops" "D1-Smith" (Num 2) ] |}.

Definition group_tied : list Unit :=
  retained (clean decimal_text (read_excel sheet_tied)).

Definition row_U1 : BehindRow :=
  {| b_unit := Some "U1"; b_type := Some "Retail"; b_walks := 0 |}.

Definition row_U2 : BehindRow :=
  {| b_unit := Some "U2"; b_type := Some "Retail"; b_walks := 0 |}.

(** ** The words of the specification *)

(** "Sorted ascending by walksCompletedYtd, ties broken by original input
    order": the stable sort of the members below target. *)
Definition behind_stable (group : list Unit) (current_period : Z)
  : list BehindRow :=
  sorted Z.leb b_walks
    (map behind_row (filter (fun u => Walks_YTD u <? current_period) group)).


(** "The sector-name starts with the excluded-sector prefix." *)
Definition has_excluded_prefix (t : text) : Prop :=
  exists rest, t = Some ("06-ESS" ++ rest)%string.

(** "The unit-label column is null or empty", of a row of the sheet. *)
Definition unlabelled (r : Row) : bool :=
  match Unit_Name r with
  | None => true
  | Some s => String.eqb s ""
  end.

(** The sheet without its unlabelled rows. *)
Definition without_unlabelled (sheet : DataFrame) : DataFrame :=
  {| columns := columns sheet;
     rows := filter (fun r => negb (unlabelled r)) (rows sheet) |}.

(** The first and the last character of a string. *)
Definition first_char (s : string) : option ascii :=
  match s with
  | EmptyString => None
  | String a _ => Some a
  end.

Fixpoint last_char (s : string) : option ascii :=
  match s with
  | EmptyString => None
  | String a rest =>
      match last_char rest with
      | Some b => Some b
      | None => Some a
      end
  end.

(** * Properties *)

(** [read_excel] leaves the header as it is. *)
Ltac sheet_columns :=
  repeat match goal with
  | |- context [has_column (read_excel ?s)] =>
      change (has_column (read_excel s)) with (has_column s)
  end.

(** Membership in a page written out: one case per widget, none of which
    is the widget looked for. *)
Ltac not_on_page H :=
  simpl in H; repeat (destruct H as [H | H]; [discriminate |]); destruct H.

(** ** The page of a sequence of statements *)

Lemma bind_return {A B} (out : list widget) (a : A) (k : A -> script B) :
  bind (out, Return a) k = (out ++ fst (k a), snd (k a)).
Proof. unfold bind. destruct (k a); reflexivity. Qed.

Lemma bind_raise {A B} (out : list widget) (e : exn) (k : A -> script B) :
  bind (out, Raise e) k = (out, Raise e).
Proof. reflexivity. Qed.

Lemma page_bind {A B} (c : script A) (k : A -> script B) (w : widget) :
  In w (page (bind c k)) ->
  In w (page c) \/ exists a, snd c = Return a /\ In w (page (k a)).
Proof.
  destruct c as [out [a | e]]; unfold page.
  - rewrite bind_return. simpl. intros H.
    apply in_app_or in H. destruct H; [left | right; exists a]; auto.
  - rewrite bind_raise. auto.
Qed.

Lemma page_for_each {A} (xs : list A) (body : A -> script unit) (w : widget) :
  In w (page (for_each xs body)) -> exists x, In x xs /\ In w (page (body x)).
Proof.
  induction xs as [| x rest IH]; simpl.
  - intros [].
  - intros H. apply page_bind in H. destruct H as [H | [_ [_ H]]].
    + exists x. auto.
    + destruct (IH H) as [y [Hy Hw]]. exists y. auto.
Qed.

Lemma page_try_except (body : script unit) (w : widget) :
  In w (page (try_except body)) ->
  In w (page body) \/ exists e, w = st_error e.
Proof.
  destruct body as [out [[] | e]]; unfold try_except, page; simpl; auto.
  destruct (is_Exception e); simpl; auto.
  intros H. apply in_app_or in H. destruct H as [H | [H | []]]; eauto.
Qed.

(** ** The normalizer, case by case *)

Section Normalizer.
Variable to_numeric_text : string -> option Z.

Local Abbreviation clean := (clean to_numeric_text).
Local Abbreviation with_Walks_YTD := (with_Walks_YTD to_numeric_text).

Lemma clean_eq (frame : DataFrame) :
  clean frame =
  if has_column frame COL_WALKS then
    if has_column frame COL_UNIT then
      if has_column frame COL_SECTOR then
        match drop_ess (keep_labelled (with_Walks_YTD frame)) with
        | [] => ([st_warning], Raise StopException)
        | df => ([], Return df)
        end
      else ([], Raise (KeyError COL_SECTOR))
    else ([], Raise (KeyError COL_UNIT))
  else ([], Raise (KeyError COL_WALKS)).
Proof.
  unfold clean, getitem.
  destruct (has_column frame COL_WALKS); [| reflexivity].
  destruct (has_column frame COL_UNIT); [| reflexivity].
  destruct (has_column frame COL_SECTOR); [| reflexivity].
  destruct (drop_ess (keep_labelled (with_Walks_YTD frame))); reflexivity.
Qed.

Lemma retained_subset (frame : DataFrame) (u : Unit) :
  In u (retained (clean frame)) ->
  In u (drop_ess (keep_labelled (with_Walks_YTD frame))).
Proof.
  rewrite clean_eq. unfold retained.
  destruct (has_column frame COL_WALKS); [| intros []].
  destruct (has_column frame COL_UNIT); [| intros []].
  destruct (has_column frame COL_SECTOR); [| intros []].
  destruct (drop_ess (keep_labelled (with_Walks_YTD frame))); auto.
Qed.
End Normalizer.

(** ** Coercion of the walks column *)

Section Coercion.
Variable to_numeric_text : string -> option Z.
Local Abbreviation clean := (clean to_numeric_text).

Lemma in_with_Walks_YTD (frame : DataFrame) (u : Unit) :
  In u (with_Walks_YTD to_numeric_text frame) ->
  exists r, In r (rows frame) /\ u = add_Walks_YTD to_numeric_text r.
Proof.
  unfold with_Walks_YTD. rewrite in_map_iff.
  intros [r [Hr Hin]]. exists r. auto.
Qed.

Lemma retained_from_row (frame : DataFrame) (u : Unit) :
  In u (retained (clean frame)) ->
  exists r, In r (rows frame) /\ u = add_Walks_YTD to_numeric_text r.
Proof.
  intros H. apply retained_subset in H.
  unfold drop_ess, keep_labelled in H.
  apply filter_In in H. destruct H as [H _].
  apply filter_In in H. destruct H as [H _].
  now apply in_with_Walks_YTD.
Qed.

End Coercion.

Example walks_ytd_samples :
  map Walks_YTD
    (retained
       (clean decimal_text
          (read_excel
             {| columns := ALL_COLUMNS;
                rows := [ mk_row "U1" "01-Ops" "D1-Smith" NaN;
                          mk_row "U2" "01-Ops" "D1-Smith" (Str "");
                          mk_row "U3" "01-Ops" "D1-Smith" (Str "n/a");
                          mk_row "U4" "01-Ops" "D1-Smith" (Str "two");
                          mk_row "U5" "01-Ops" "D1-Smith" (Str "7");
                          mk_row "U6" "01-Ops" "D1-Smith" (Num 4) ] |})))
  = [0; 0; 0; 0; 7; 4].
Proof. reflexivity. Qed.


(** ** Chart segments *)


(** ** The sector filter *)

Lemma prefix_app (p s : string) :
  String.prefix p s = true <-> exists rest, s = (p ++ rest)%string.
Proof.
  revert s. induction p as [| a p IH]; intros s; simpl.
  - destruct s; split; eauto.
  - destruct s as [| b s]; simpl.
    + split; [discriminate | intros [rest H]; discriminate].
    + destruct (ascii_dec a b) as [<- | Hne].
      * rewrite IH. split; intros [rest H]; exists rest; congruence.
      * split; [discriminate | intros [rest H]; congruence].
Qed.

Lemma is_ess_prefix (t : text) : is_ess t = true <-> has_excluded_prefix t.
Proof.
  unfold has_excluded_prefix. destruct t as [s |]; simpl.
  - unfold PyStr.startswith. rewrite prefix_app.
    split; intros [rest H]; exists rest; [now subst | now inversion H].
  - split; [discriminate | intros [rest H]; discriminate].
Qed.

(** The prefix is matched with its case. *)
Example ess_prefix_case :
  is_ess (Some "06-ESS Support Services") = true
  /\ is_ess (Some "06-ess Support Services") = false
  /\ is_ess (Some "6-ESS") = false.
Proof. repeat split. Qed.

Section SectorFilter.
Variable to_numeric_text : string -> option Z.
Local Abbreviation clean := (clean to_numeric_text).
Local Abbreviation with_Walks_YTD := (with_Walks_YTD to_numeric_text).

End SectorFilter.

(** ** The label filter *)

Lemma read_unlabelled (r : Row) :
  unlabelled r = true -> Unit_Name (read_row r) = None.
Proof.
  unfold unlabelled. destruct r as [[s |] ? ? ? ?]; simpl; [| reflexivity].
  intros H. apply String.eqb_eq in H. now subst.
Qed.

Lemma read_labelled (r : Row) :
  notna (Unit_Name (read_row r)) = true -> unlabelled r = false.
Proof.
  destruct (unlabelled r) eqn:E; [| reflexivity].
  apply read_unlabelled in E. now rewrite E.
Qed.

Section LabelFilter.
Variable to_numeric_text : string -> option Z.
Variable tie_order : list BehindRow -> list BehindRow.
Local Abbreviation clean := (clean to_numeric_text).
Local Abbreviation with_Walks_YTD := (with_Walks_YTD to_numeric_text).
Local Abbreviation main := (main to_numeric_text tie_order).

Lemma keep_labelled_without_unlabelled (sheet : DataFrame) :
  keep_labelled (with_Walks_YTD (read_excel (without_unlabelled sheet)))
  = keep_labelled (with_Walks_YTD (read_excel sheet)).
Proof.
  unfold with_Walks_YTD, keep_labelled. simpl.
  induction (rows sheet) as [| r rest IH]; [reflexivity |].
  cbn [filter map negb].
  destruct (unlabelled r) eqn:E; cbn [filter map negb cells add_Walks_YTD].
  - rewrite (read_unlabelled r E). exact IH.
  - destruct (notna (Unit_Name (read_row r))); [f_equal |]; exact IH.
Qed.

Lemma clean_without_unlabelled (sheet : DataFrame) :
  clean (read_excel (without_unlabelled sheet)) = clean (read_excel sheet).
Proof.
  rewrite !clean_eq.
  sheet_columns.
  now rewrite keep_labelled_without_unlabelled.
Qed.


(** ** The empty result *)

End LabelFilter.


(** ** Stable sorting *)

Section StableSortFacts.
Context {A K : Type} (leb : K -> K -> bool) (key : A -> K).
Hypothesis leb_total : forall a b, leb a b = true \/ leb b a = true.
Hypothesis leb_trans :
  forall a b c, leb a b = true -> leb b c = true -> leb a c = true.

Local Abbreviation key_le := (key_le leb key).

Lemma insert_by_perm (x : A) (l : list A) :
  Permutation (x :: l) (insert_by leb key x l).
Proof.
  induction l as [| y rest IH]; simpl.
  - apply Permutation_refl.
  - destruct (leb (key x) (key y)).
    + apply Permutation_refl.
    + eapply perm_trans; [apply perm_swap |]. now apply perm_skip.
Qed.

Lemma sorted_perm (l : list A) : Permutation l (sorted leb key l).
Proof.
  induction l as [| x rest IH]; simpl.
  - apply perm_nil.
  - eapply perm_trans; [apply perm_skip, IH |]. apply insert_by_perm.
Qed.

Lemma insert_by_sorted (x : A) (l : list A) :
  StronglySorted key_le l -> StronglySorted key_le (insert_by leb key x l).
Proof.
  induction 1 as [| y rest Hs IH Hy]; simpl.
  - repeat constructor.
  - destruct (leb (key x) (key y)) eqn:E.
    + constructor; [now constructor |].
      constructor; [exact E |].
      eapply Forall_impl; [| exact Hy].
      intros z Hz. unfold key_le in *. eauto.
    + constructor; [exact IH |].
      eapply Permutation_Forall; [apply insert_by_perm |].
      constructor; [| exact Hy].
      unfold key_le. destruct (leb_total (key x) (key y)); congruence.
Qed.

Lemma sorted_sorted (l : list A) : StronglySorted key_le (sorted leb key l).
Proof.
  induction l as [| x rest IH]; simpl.
  - constructor.
  - now apply insert_by_sorted.
Qed.

(** Stability: the elements with a given key keep their order. *)
Variable eqb : K -> K -> bool.
Hypothesis eqb_eq : forall a b, eqb a b = true <-> a = b.

Lemma leb_refl (a : K) : leb a a = true.
Proof. destruct (leb_total a a); assumption. Qed.

Lemma insert_by_filter (k : K) (x : A) (l : list A) :
  filter (fun a => eqb (key a) k) (insert_by leb key x l)
  = filter (fun a => eqb (key a) k) (x :: l).
Proof.
  induction l as [| y rest IH]; [reflexivity |].
  cbn [insert_by]. destruct (leb (key x) (key y)) eqn:E; [reflexivity |].
  cbn [filter] in *. rewrite IH.
  destruct (eqb (key x) k) eqn:Ex; [| reflexivity].
  destruct (eqb (key y) k) eqn:Ey; [| reflexivity].
  apply eqb_eq in Ex, Ey. rewrite Ex, <- Ey, leb_refl in E. discriminate.
Qed.

Lemma sorted_stable (k : K) (l : list A) :
  filter (fun a => eqb (key a) k) (sorted leb key l)
  = filter (fun a => eqb (key a) k) l.
Proof.
  induction l as [| x rest IH]; [reflexivity |].
  cbn [sorted fold_right]. rewrite insert_by_filter.
  cbn [filter]. fold (sorted leb key rest). now rewrite IH.
Qed.
End StableSortFacts.

(** The order of Python strings: character by character, by code. *)
Lemma string_leb_trans (a b c : string) :
  String.leb a b = true -> String.leb b c = true -> String.leb a c = true.
Proof.
  unfold String.leb. revert b c.
  induction a as [| x a IH]; intros [| y b] [| z c]; simpl; try congruence.
  specialize (IH b c). unfold Ascii.compare.
  destruct (N.compare_spec (N_of_ascii x) (N_of_ascii y)) as [Hxy | Hxy | Hxy];
    try discriminate;
    destruct (N.compare_spec (N_of_ascii y) (N_of_ascii z)) as [Hyz | Hyz | Hyz];
    try discriminate; intros H1 H2.
  - rewrite Hxy, Hyz, N.compare_refl. auto.
  - rewrite Hxy. apply N.compare_lt_iff in Hyz. now rewrite Hyz.
  - rewrite <- Hyz. apply N.compare_lt_iff in Hxy. now rewrite Hxy.
  - assert (H : (N_of_ascii x < N_of_ascii z)%N) by lia.
    apply N.compare_lt_iff in H. now rewrite H.
Qed.

(** ** Python's string operations *)

(** Without the separator there is one piece, the string itself. *)
Lemma split_without (sep : ascii) (s : string) :
  PyStr.contains sep s = false -> PyStr.split sep s = [s].
Proof.
  induction s as [| a s IH]; simpl; [reflexivity |].
  destruct (Ascii.eqb a sep); simpl; [discriminate |].
  intros H. now rewrite (IH H).
Qed.

(** With a separator, the last piece is what follows the final one. *)
Lemma split_pieces (sep : ascii) (pre post : string) :
  PyStr.contains sep post = false ->
  exists w ws,
    PyStr.split sep (pre ++ String sep post)%string = (w :: ws) ++ [post].
Proof.
  intros Hpost. induction pre as [| a pre [w [ws IH]]].
  - exists EmptyString, []. cbn [String.append PyStr.split].
    rewrite Ascii.eqb_refl. now rewrite (split_without _ _ Hpost).
  - cbn [String.append PyStr.split]. rewrite IH.
    destruct (Ascii.eqb a sep).
    + exists EmptyString, (w :: ws). reflexivity.
    + exists (String a w), ws. reflexivity.
Qed.

Lemma split_last (sep : ascii) (pre post : string) :
  PyStr.contains sep post = false ->
  last (PyStr.split sep (pre ++ String sep post)%string) EmptyString = post.
Proof.
  intros Hpost. destruct (split_pieces sep pre post Hpost) as [w [ws ->]].
  apply last_last.
Qed.

Lemma contains_app (sep : ascii) (pre post : string) :
  PyStr.contains sep (pre ++ String sep post)%string = true.
Proof.
  induction pre as [| a pre IH]; simpl.
  - now rewrite Ascii.eqb_refl.
  - rewrite IH. apply orb_true_r.
Qed.

(** ** The order of the districts *)


Example sample_of_district_order :
  districts_of
    (map (add_Walks_YTD decimal_text)
       [ mk_row "U1" "01-Ops" "D2-Jones" NaN;
         mk_row "U2" "01-Ops" "D1 - Smith " NaN;
         mk_row "U3" "01-Ops" "Adams" NaN;
         mk_row "U4" "01-Ops" "D2-Jones" NaN;
         mk_row "U5" "01-Ops" "D9-Adams" NaN;
         mk_row "U6" "01-Ops" "D7-Adams" NaN ])
  = [Some "Adams"; Some "D9-Adams"; Some "D7-Adams"; Some "D2-Jones";
     Some "D1 - Smith "].
Proof. reflexivity. Qed.

(** ** Units behind target *)

Lemma Zleb_total (a b : Z) : (a <=? b) = true \/ (b <=? a) = true.
Proof. rewrite !Z.leb_le. lia. Qed.

Lemma Zleb_trans (a b c : Z) :
  (a <=? b) = true -> (b <=? c) = true -> (a <=? c) = true.
Proof. rewrite !Z.leb_le. lia. Qed.

Lemma sorted_by_walks (l : list BehindRow) :
  StronglySorted walks_le (sorted Z.leb b_walks l).
Proof.
  pose proof (sorted_sorted Z.leb b_walks Zleb_total Zleb_trans l) as H.
  induction H as [| a rest Hs IH Ha]; constructor; [exact IH |].
  eapply Forall_impl; [| exact Ha].
  intros b Hb. now apply Z.leb_le.
Qed.

Section BehindUnits.
Variable tie_order : list BehindRow -> list BehindRow.

(** Quicksort rearranges the rows; it neither drops nor repeats one. *)
Hypothesis tie_order_perm : forall l, Permutation l (tie_order l).

Lemma sort_values_perm (l : list BehindRow) :
  Permutation l (sort_values tie_order l).
Proof.
  unfold sort_values.
  eapply perm_trans; [apply tie_order_perm | apply sorted_perm].
Qed.

End BehindUnits.


(** With the input order for equal counts, the table is the stable one. *)
Lemma behind_input_order (group : list Unit) (current_period : Z) :
  behind input_order group current_period = behind_stable group current_period.
Proof. reflexivity. Qed.


(** ** District keys *)

Lemma text_eqb_eq (a b : text) : text_eqb a b = true <-> a = b.
Proof.
  destruct a as [x |], b as [y |]; simpl;
    try (split; [discriminate | intros H; discriminate]).
  - rewrite String.eqb_eq. split; congruence.
  - tauto.
Qed.

Lemma unique_In (x : text) (l : list text) : In x (unique l) <-> In x l.
Proof.
  induction l as [| y rest IH]; simpl; [tauto |].
  rewrite filter_In, IH. split.
  - intros [H | [H _]]; auto.
  - intros [H | H]; auto.
    destruct (text_eqb x y) eqn:E.
    + apply text_eqb_eq in E. auto.
    + right. auto.
Qed.

Lemma unique_NoDup (l : list text) : NoDup (unique l).
Proof.
  induction l as [| y rest IH]; simpl; constructor.
  - rewrite filter_In. intros [_ H].
    assert (E : text_eqb y y = true) by now apply text_eqb_eq.
    now rewrite E in H.
  - now apply NoDup_filter.
Qed.

Lemma districts_of_In (df : list Unit) (d : text) :
  In d (districts_of df) <-> exists u, In u df /\ District (cells u) = d.
Proof.
  unfold districts_of. split.
  - intros H.
    apply (Permutation_in _ (Permutation_sym (sorted_perm _ _ _))) in H.
    apply unique_In, in_map_iff in H. destruct H as [u [Hu Hin]]. eauto.
  - intros [u [Hu Hd]].
    apply (Permutation_in _ (sorted_perm _ _ _)).
    apply unique_In, in_map_iff. eauto.
Qed.

Lemma districts_of_NoDup (df : list Unit) : NoDup (districts_of df).
Proof.
  unfold districts_of.
  eapply Permutation_NoDup; [apply sorted_perm | apply unique_NoDup].
Qed.

(** ** The sections of the page *)

Section Sections.
Variable to_numeric_text : string -> option Z.
Variable tie_order : list BehindRow -> list BehindRow.
Local Abbreviation clean := (clean to_numeric_text).
Local Abbreviation district_section := (district_section tie_order).
Local Abbreviation report := (report to_numeric_text tie_order).
Local Abbreviation main := (main to_numeric_text tie_order).

Lemma district_section_nan (frame : DataFrame) (df : list Unit) (p : Z) :
  district_section frame df p None = ([], Raise TypeError).
Proof. reflexivity. Qed.

Lemma district_section_named (frame : DataFrame) (df : list Unit) (p : Z)
    (s : string) :
  district_section frame df p (Some s) =
  let group := group_of df (Some s) in
  let agg := aggregate group p in
  let name := if PyStr.contains "-" s then after_last_dash s else s in
  let head :=
    [ st_expander s (unitCount agg) (targetTotal agg) (actualTotal agg);
      st_metric "Units" (unitCount agg);
      st_metric "Target" (targetTotal agg);
      st_metric "Actual" (actualTotal agg) ] in
  let chart :=
    st_pyplot_pie (pie name (actualTotal agg) (targetTotal agg)) in
  if has_column frame COL_TYPE then
    (head
     ++ match behind tie_order group p with
        | [] => [st_success]
        | table =>
            [st_subheader "Units Behind Target"; st_dataframe table]
        end
     ++ page chart,
     snd chart)
  else (head, Raise (KeyError COL_TYPE)).
Proof.
  unfold district_section, dm_name, getitem. cbv zeta.
  destruct (has_column frame COL_TYPE); [| reflexivity].
  destruct (behind tie_order (group_of df (Some s)) p);
    cbv beta iota delta [bind ret render raise];
    destruct (st_pyplot_pie _); reflexivity.
Qed.

(** The aggregate a district section shows is that of a named district
    and of its group. *)
Lemma district_section_aggregates (frame : DataFrame) (df : list Unit)
    (p : Z) (district : text) :
  district_aggregates (page (district_section frame df p district))
  = match district with
    | Some _ => [aggregate (group_of df district) p]
    | None => []
    end.
Proof.
  destruct district as [s |]; [| reflexivity].
  rewrite district_section_named. cbv zeta. unfold st_pyplot_pie.
  destruct (has_column frame COL_TYPE); [| reflexivity].
  destruct (behind tie_order (group_of df (Some s)) p);
    destruct (existsb _ _); reflexivity.
Qed.
End Sections.

(** ** District aggregates on the page *)

Lemma district_aggregates_app (p q : list widget) :
  district_aggregates (p ++ q) = district_aggregates p ++ district_aggregates q.
Proof. apply flat_map_app. Qed.

Lemma district_aggregates_In (agg : Aggregate) (pg : list widget) :
  In agg (district_aggregates pg) ->
  exists w, In w pg /\ In agg (district_aggregates [w]).
Proof.
  unfold district_aggregates at 1. rewrite in_flat_map.
  intros [w [Hw Hagg]]. exists w. split; [exact Hw |].
  simpl. now rewrite app_nil_r.
Qed.

Lemma group_of_member (df : list Unit) (u : Unit) (s : string) :
  In u df -> District (cells u) = Some s -> In u (group_of df (Some s)).
Proof.
  intros Hu Hd. unfold group_of. apply filter_In. split; [exact Hu |].
  rewrite Hd. simpl. apply String.eqb_refl.
Qed.

Section Aggregates.
Variable to_numeric_text : string -> option Z.
Variable tie_order : list BehindRow -> list BehindRow.
Local Abbreviation clean := (clean to_numeric_text).
Local Abbreviation district_section := (district_section tie_order).
Local Abbreviation report := (report to_numeric_text tie_order).
Local Abbreviation main := (main to_numeric_text tie_order).

Lemma page_clean (frame : DataFrame) (w : widget) :
  In w (page (clean frame)) -> w = st_warning.
Proof.
  rewrite clean_eq.
  destruct (has_column frame COL_WALKS); [| intros []].
  destruct (has_column frame COL_UNIT); [| intros []].
  destruct (has_column frame COL_SECTOR); [| intros []].
  destruct (drop_ess _); simpl; [| intros []].
  intros [H | []]. now symmetry.
Qed.

(** A widget of the report is the head of a district section or a table
    of units only inside the section of one of the districts. *)
Lemma page_report (frame : DataFrame) (p : Z) (w : widget) :
  In w (page (report frame p)) ->
  ((forall d n t a, w <> st_expander d n t a)
   /\ (forall table, w <> st_dataframe table))
  \/ exists df d,
       snd (clean frame) = Return df /\ In d (districts_of df)
       /\ In w (page (district_section frame df p d)).
Proof.
  unfold report. intros H.
  apply page_bind in H. destruct H as [H | [df [Hdf H]]].
  { apply page_clean in H. subst. left. split; discriminate. }
  apply page_bind in H. destruct H as [H | [_ [_ H]]].
  { unfold getitem in H. destruct (has_column frame COL_DISTRICT); destruct H. }
  apply page_bind in H. destruct H as [H | [_ [_ H]]].
  { left. unfold overall_section, st_pyplot_pie in H.
    destruct (existsb _ _); simpl in H;
      repeat (destruct H as [<- | H]; [split; discriminate |]); destruct H. }
  apply page_for_each in H. destruct H as [d [Hd H]].
  right. exists df, d. auto.
Qed.

(** A widget of the page is the head of a district section or a table of
    units only inside the section of one of the districts of the retained
    records. *)
Lemma page_main (uploaded : option DataFrame) (p : Z) (w : widget) :
  In w (page (main uploaded p)) ->
  ((forall d n t a, w <> st_expander d n t a)
   /\ (forall table, w <> st_dataframe table))
  \/ exists sheet df d,
       uploaded = Some sheet
       /\ snd (clean (read_excel sheet)) = Return df
       /\ In d (districts_of df)
       /\ In w (page (district_section (read_excel sheet) df p d)).
Proof.
  intros Hw. destruct uploaded as [sheet |].
  2:{ simpl in Hw. destruct Hw as [<- | []]. left. split; discriminate. }
  unfold main in Hw.
  apply page_bind in Hw. destruct Hw as [Hw | [_ [_ Hw]]].
  2:{ simpl in Hw. destruct Hw as [<- | []]. left. split; discriminate. }
  apply page_try_except in Hw. destruct Hw as [Hw | [e ->]].
  2:{ left. split; discriminate. }
  apply page_report in Hw. destruct Hw as [Hw | [df [d [Hdf [Hd Hw]]]]].
  - now left.
  - right. exists sheet, df, d. auto.
Qed.

(** Every district aggregate on the page is the aggregate of the group of
    a named district of the retained records. *)
Lemma main_district_aggregates (uploaded : option DataFrame) (p : Z)
    (agg : Aggregate) :
  In agg (district_aggregates (page (main uploaded p))) ->
  exists sheet df s,
    uploaded = Some sheet
    /\ snd (clean (read_excel sheet)) = Return df
    /\ In (Some s) (districts_of df)
    /\ agg = aggregate (group_of df (Some s)) p.
Proof.
  intros H. apply district_aggregates_In in H. destruct H as [w [Hw Hagg]].
  apply page_main in Hw.
  destruct Hw as [[Hw _] | [sheet [df [d [-> [Hdf [Hd Hw]]]]]]].
  { destruct w; try (now destruct Hagg).
    now destruct (Hw district num_units target actual). }
  assert (Hin : In agg (district_aggregates
                          (page (district_section (read_excel sheet) df p d)))).
  { unfold district_aggregates at 1. apply in_flat_map. exists w.
    split; [exact Hw |]. simpl in Hagg. now rewrite app_nil_r in Hagg. }
  rewrite district_section_aggregates in Hin.
  destruct d as [s |]; [| destruct Hin].
  destruct Hin as [<- | []]. exists sheet, df, s. auto.
Qed.

(** Every table of units behind target on the page is the table of the
    group of a named district of the retained records, and has a row. *)
Lemma main_tables (uploaded : option DataFrame) (p : Z)
    (table : list BehindRow) :
  In (st_dataframe table) (page (main uploaded p)) ->
  exists sheet df s,
    uploaded = Some sheet
    /\ snd (clean (read_excel sheet)) = Return df
    /\ In (Some s) (districts_of df)
    /\ table = behind tie_order (group_of df (Some s)) p
    /\ table <> [].
Proof.
  intros H. apply page_main in H.
  destruct H as [[_ H] | [sheet [df [d [-> [Hdf [Hd H]]]]]]].
  { now destruct (H table). }
  destruct d as [s |]; [| destruct H].
  exists sheet, df, s. repeat (split; [assumption || reflexivity |]).
  rewrite district_section_named in H. cbv zeta in H.
  destruct (has_column (read_excel sheet) COL_TYPE); unfold page in H;
    cbn [fst] in H.
  2:{ not_on_page H. }
  apply in_app_or in H. destruct H as [H | H].
  { not_on_page H. }
  apply in_app_or in H. destruct H as [H | H].
  - destruct (behind tie_order (group_of df (Some s)) p) as [| b t].
    + destruct H as [H | []]. discriminate.
    + destruct H as [H | [H | []]]; [discriminate |].
      inversion H. split; [reflexivity | discriminate].
  - unfold st_pyplot_pie in H. destruct (existsb _ _); simpl in H.
    + destruct H.
    + destruct H as [H | []]. discriminate.
Qed.

(** C10: every district aggregate on the page counts at least one unit. *)
Theorem district_unit_count_positive (uploaded : option DataFrame) (p : Z) :
  Forall (fun agg => 1 <= unitCount agg)
    (district_aggregates (page (main uploaded p))).
Proof.
  apply Forall_forall. intros agg H.
  apply main_district_aggregates in H.
  destruct H as [sheet [df [s [_ [_ [Hd ->]]]]]].
  apply districts_of_In in Hd. destruct Hd as [u [Hu Hd]].
  pose proof (group_of_member df u s Hu Hd) as Hin.
  simpl. destruct (group_of df (Some s)); [destruct Hin |].
  simpl length. lia.
Qed.
End Aggregates.

(** The example of the specification, end to end: U1 is the only unit
    retained; overall and in the district "D1-Smith", shown as "Smith",
    there is 1 unit with a target of 3 and 2 walks; U1 is behind; the
    charts have 2 completed and 1 remaining. *)
Example spec_example_page :
  main decimal_text input_order (Some sheet_spec_example) 3
  = ([ st_header "Overall Summary (All Non-ESS Units)";
       st_metric "Total Units" 1;
       st_metric "Target Walks" 3;
       st_metric "Actual Walks Completed" 2;
       st_metric_ratio "Compliance %" 2 3;
       st_pyplot {| sizes := [2; 1]; labels := ["Completed"; "Remaining"];
                    title_name := "Overall Progress"; title_actual := 2;
                    title_target := 3; title_excess := None |};
       st_markdown;
       st_header "District Manager Breakdown";
       st_expander "D1-Smith" 1 3 2;
       st_metric "Units" 1;
       st_metric "Target" 3;
       st_metric "Actual" 2;
       st_subheader "Units Behind Target";
       st_dataframe
         [ {| b_unit := Some "U1"; b_type := Some "Retail"; b_walks := 2 |} ];
       st_pyplot {| sizes := [2; 1]; labels := ["Completed"; "Remaining"];
                    title_name := "Smith"; title_actual := 2;
                    title_target := 3; title_excess := None |};
       st_sidebar ], Return tt).
Proof. reflexivity. Qed.

Example district_unit_count_sample :
  district_aggregates
    (page (main decimal_text input_order (Some sheet_spec_example) 3))
  = [ {| unitCount := 1; targetTotal := 3; actualTotal := 2 |} ].
Proof. reflexivity. Qed.

(** ** Missing columns *)

Section MissingColumns.
Variable to_numeric_text : string -> option Z.
Variable tie_order : list BehindRow -> list BehindRow.
Local Abbreviation with_Walks_YTD := (with_Walks_YTD to_numeric_text).
Local Abbreviation main := (main to_numeric_text tie_order).

End MissingColumns.



(** ** Sums over the districts *)

Lemma wsum_length (l : list Unit) :
  wsum (fun _ => 1) l = Z.of_nat (length l).
Proof.
  induction l as [| u l IH]; [reflexivity |].
  unfold wsum in *. cbn [fold_right length]. rewrite IH, Nat2Z.inj_succ. lia.
Qed.

Lemma sum_Z_cons (x : Z) (l : list Z) : sum_Z (x :: l) = x + sum_Z l.
Proof. reflexivity. Qed.

Lemma series_eq_true (c d : text) :
  series_eq c d = true <-> exists s, c = Some s /\ d = Some s.
Proof.
  destruct c as [a |], d as [b |]; simpl.
  - rewrite String.eqb_eq. split.
    + intros ->. eauto.
    + intros [s [H1 H2]]. congruence.
  - split; [discriminate | intros [s [_ H]]; discriminate].
  - split; [discriminate | intros [s [H _]]; discriminate].
  - split; [discriminate | intros [s [H _]]; discriminate].
Qed.

(** How many of the keys [ks] a district cell equals. *)
Lemma matches_absent (c : text) (ks : list text) :
  ~ In c ks ->
  sum_Z (map (fun d => if series_eq c d then 1 else 0) ks) = 0.
Proof.
  induction ks as [| d ks IH]; [reflexivity |].
  intros H. rewrite map_cons, sum_Z_cons, IH by (intros H'; apply H; now right).
  destruct (series_eq c d) eqn:E; [| reflexivity].
  apply series_eq_true in E. destruct E as [s [-> ->]].
  exfalso. apply H. now left.
Qed.

Lemma matches_once (s : string) (ks : list text) :
  NoDup ks -> In (Some s) ks ->
  sum_Z (map (fun d => if series_eq (Some s) d then 1 else 0) ks) = 1.
Proof.
  induction 1 as [| d ks Hd Hnd IH]; [intros [] |].
  rewrite map_cons, sum_Z_cons. intros [-> | Hin].
  - rewrite matches_absent by exact Hd.
    cbn [series_eq]. now rewrite String.eqb_refl.
  - rewrite IH by exact Hin.
    destruct (series_eq (Some s) d) eqn:E; [| reflexivity].
    apply series_eq_true in E. destruct E as [s' [Hs ->]].
    inversion Hs. subst. contradiction.
Qed.

Lemma wsum_groups_cons (w : Unit -> Z) (u : Unit) (df : list Unit)
    (ks : list text) :
  sum_Z (map (fun d => wsum w (group_of (u :: df) d)) ks)
  = w u * sum_Z (map (fun d => if series_eq (District (cells u)) d
                               then 1 else 0) ks)
    + sum_Z (map (fun d => wsum w (group_of df d)) ks).
Proof.
  induction ks as [| d ks IH]; [cbn [map sum_Z fold_right]; lia |].
  rewrite !map_cons, !sum_Z_cons, IH.
  unfold group_of at 1. cbn [filter]. fold (group_of df d).
  destruct (series_eq (District (cells u)) d).
  - change (wsum w (u :: group_of df d)) with (w u + wsum w (group_of df d)).
    lia.
  - lia.
Qed.

(** The groups of distinct keys that cover the districts of the records
    split any sum over the records. *)
Lemma wsum_groups (w : Unit -> Z) (df : list Unit) (ks : list text) :
  NoDup ks ->
  (forall u, In u df -> exists s, District (cells u) = Some s /\ In (Some s) ks) ->
  sum_Z (map (fun d => wsum w (group_of df d)) ks) = wsum w df.
Proof.
  intros Hnd. induction df as [| u df IH]; intros Hcover.
  - clear Hnd Hcover. induction ks as [| d ks IHk]; [reflexivity |].
    rewrite map_cons, sum_Z_cons, IHk. reflexivity.
  - rewrite wsum_groups_cons.
    destruct (Hcover u (or_introl eq_refl)) as [s [Hs Hin]].
    rewrite Hs, matches_once by assumption.
    rewrite IH by (intros v Hv; apply Hcover; now right).
    change (wsum w (u :: df)) with (w u + wsum w df). lia.
Qed.

Lemma for_each_return {A} (xs : list A) (body : A -> script unit) :
  (forall x, In x xs -> snd (body x) = Return tt) ->
  for_each xs body = (flat_map (fun x => page (body x)) xs, Return tt).
Proof.
  induction xs as [| x rest IH]; intros Hret; [reflexivity |].
  cbn [for_each flat_map].
  pose proof (Hret x (or_introl eq_refl)) as Hx.
  destruct (body x) as [out r]. simpl in Hx. subst r.
  rewrite bind_return, IH by (intros y Hy; apply Hret; now right).
  reflexivity.
Qed.

(** The chart of totals that are not negative is drawn. *)
Lemma st_pyplot_pie_nonneg (name : string) (actual target : Z) :
  0 <= actual -> 0 <= target ->
  st_pyplot_pie (pie name actual target)
  = render (st_pyplot (pie name actual target)).
Proof.
  intros Ha Ht. unfold st_pyplot_pie.
  replace (existsb _ _) with false; [reflexivity |].
  unfold pie, completed_of, remaining_of, excess_of.
  destruct (0 <? Z.max (actual - target) 0); cbn [sizes existsb];
    symmetry; rewrite !orb_false_iff, !Z.ltb_ge; lia.
Qed.

Lemma wsum_nonneg (w : Unit -> Z) (l : list Unit) :
  Forall (fun u => 0 <= w u) l -> 0 <= wsum w l.
Proof.
  induction 1 as [| u l Hu Hl IH]; [reflexivity |].
  change (wsum w (u :: l)) with (w u + wsum w l). lia.
Qed.

Lemma aggregate_nonneg (df group : list Unit) (p : Z) :
  0 <= p -> Forall (fun u => 0 <= Walks_YTD u) df -> incl group df ->
  0 <= actualTotal (aggregate group p) /\ 0 <= targetTotal (aggregate group p).
Proof.
  intros Hp Hdf Hincl. cbn [actualTotal targetTotal aggregate]. split.
  - apply wsum_nonneg. rewrite Forall_forall in *. auto.
  - apply Z.mul_nonneg_nonneg; lia.
Qed.

Section DistrictSums.
Variable to_numeric_text : string -> option Z.
Variable tie_order : list BehindRow -> list BehindRow.
Local Abbreviation clean := (clean to_numeric_text).
Local Abbreviation district_section := (district_section tie_order).
Local Abbreviation main := (main to_numeric_text tie_order).

End DistrictSums.

(** C2 at a sheet where U2 has no district: the overall aggregate counts
    both units, the only district aggregate is that of U1's district, and
    the loop ends in a TypeError at the NaN key. *)
Lemma district_sums_blank_district :
  overall_aggregate page_blank_district
  = Some {| unitCount := 2; targetTotal := 6; actualTotal := 6 |}
  /\ district_aggregates page_blank_district
     = [ {| unitCount := 1; targetTotal := 3; actualTotal := 2 |} ]
  /\ sum_Z (map unitCount (district_aggregates page_blank_district)) = 1
  /\ sum_Z (map actualTotal (district_aggregates page_blank_district)) = 2
  /\ In (st_error TypeError) page_blank_district.
Proof.
  split; [reflexivity |]. split; [reflexivity |].
  split; [reflexivity |]. split; [reflexivity |]. vm_compute. tauto.
Qed.

(** ** The order of the sections *)

Lemma expander_names_app (p q : list widget) :
  expander_names (p ++ q) = expander_names p ++ expander_names q.
Proof. apply flat_map_app. Qed.

Section SectionOrder.
Variable to_numeric_text : string -> option Z.
Variable tie_order : list BehindRow -> list BehindRow.
Local Abbreviation clean := (clean to_numeric_text).
Local Abbreviation district_section := (district_section tie_order).
Local Abbreviation main := (main to_numeric_text tie_order).

Lemma district_section_names (frame : DataFrame) (df : list Unit) (p : Z)
    (d : text) :
  expander_names (page (district_section frame df p d))
  = match d with
    | Some s => [s]
    | None => []
    end.
Proof.
  destruct d as [s |]; [| reflexivity].
  rewrite district_section_named. cbv zeta. unfold st_pyplot_pie.
  destruct (has_column frame COL_TYPE); [| reflexivity].
  destruct (behind tie_order (group_of df (Some s)) p);
    destruct (existsb _ _); reflexivity.
Qed.

Lemma for_each_names (frame : DataFrame) (df : list Unit) (p : Z)
    (ds : list text) :
  exists n,
    expander_names (page (for_each ds (district_section frame df p)))
    = firstn n (map format_text ds).
Proof.
  induction ds as [| d ds [n IH]]; [exists 0%nat; reflexivity |].
  cbn [for_each]. destruct d as [s |].
  2:{ exists 0%nat. reflexivity. }
  pose proof (district_section_names frame df p (Some s)) as Hd.
  destruct (district_section frame df p (Some s)) as [out [[] | e]].
  - exists (S n). rewrite bind_return. unfold page in *. cbn [fst] in *.
    now rewrite expander_names_app, Hd, IH.
  - exists 1%nat. rewrite bind_raise. exact Hd.
Qed.

(** The district sections of the page are those of the first districts,
    in the order of [districts_of]; the page stops short of the last
    district when a statement raises. *)
Lemma sections_in_order (sheet : DataFrame) (p : Z) (df : list Unit) :
  clean (read_excel sheet) = ([], Return df) ->
  exists n,
    expander_names (page (main (Some sheet) p))
    = firstn n (map format_text (districts_of df)).
Proof.
  intros Hclean.
  destruct (for_each_names (read_excel sheet) df p (districts_of df))
    as [n Hn].
  assert (Hover : expander_names (page (overall_section df p)) = []).
  { unfold overall_section, st_pyplot_pie.
    destruct (existsb _ _); reflexivity. }
  unfold main, report. rewrite Hclean, bind_return. cbv beta.
  unfold getitem. destruct (has_column (read_excel sheet) COL_DISTRICT).
  2:{ exists 0%nat. reflexivity. }
  destruct (overall_section df p) as [out [[] | e]];
    unfold page in Hover; cbn [fst] in Hover.
  2:{ exists 0%nat. destruct (is_Exception e) eqn:E.
      - unfold ret, bind, try_except, render, page. cbn [fst snd app].
        rewrite E. cbn [fst app].
        rewrite !expander_names_app, Hover. reflexivity.
      - unfold ret, bind, try_except, render, page. cbn [fst snd app].
        rewrite E. cbn [fst]. exact Hover. }
  destruct (for_each (districts_of df)
              (district_section (read_excel sheet) df p))
    as [out' r] eqn:Hfor.
  unfold page in Hn. cbn [fst] in Hn.
  exists n. destruct r as [[] | e].
  - unfold ret, bind, try_except, render, page. cbn [fst snd app].
    rewrite !expander_names_app, Hover, Hn. cbn [expander_names flat_map app].
    now rewrite app_nil_r.
  - unfold ret, bind, try_except, render, page. cbn [fst snd app].
    destruct (is_Exception e); cbn [fst app];
      rewrite !expander_names_app, Hover, Hn; cbn [expander_names flat_map app];
      now rewrite ?app_nil_r.
Qed.
End SectionOrder.

Example sections_in_order_sample :
  expander_names
    (page (main decimal_text input_order
             (Some {| columns := ALL_COLUMNS;
                      rows := [ mk_row "U1" "01-Ops" "D2-Jones" (Num 1);
                                mk_row "U2" "01-Ops" "D9-Adams" (Num 4);
                                mk_row "U3" "01-Ops" "D1 - Smith" (Num 3) ] |})
             3))
  = ["D9-Adams"; "D2-Jones"; "D1 - Smith"].
Proof. reflexivity. Qed.

(** * Further properties of the script *)

(** ** The retained records *)

Section RetainedOrder.
Variable to_numeric_text : string -> option Z.
Local Abbreviation clean := (clean to_numeric_text).
Local Abbreviation with_Walks_YTD := (with_Walks_YTD to_numeric_text).

Lemma filters_of_rows (l : list Row) :
  drop_ess (keep_labelled (map (add_Walks_YTD to_numeric_text) l))
  = map (add_Walks_YTD to_numeric_text)
      (filter (fun r => notna (Unit_Name r) && negb (is_ess (Sector_Name r))) l).
Proof.
  unfold drop_ess, keep_labelled.
  induction l as [| r l IH]; [reflexivity |].
  cbn [map filter cells add_Walks_YTD].
  destruct (notna (Unit_Name r)); cbn [andb]; [| exact IH].
  cbn [filter cells add_Walks_YTD].
  destruct (is_ess (Sector_Name r)); cbn [negb map]; [exact IH |].
  now rewrite IH.
Qed.

End RetainedOrder.


(** ** The district keys *)

(** Lines 35-38: every district cell of a retained record is a key of the
    list, every key is the district cell of some record, and no key occurs
    twice. *)
Theorem districts_distinct (df : list Unit) :
  NoDup (districts_of df)
  /\ forall d, In d (districts_of df)
               <-> exists u, In u df /\ District (cells u) = d.
Proof.
  split.
  - unfold districts_of.
    eapply Permutation_NoDup; [apply sorted_perm | apply unique_NoDup].
  - intros d. unfold districts_of. split.
    + intros H.
      apply (Permutation_in _ (Permutation_sym (sorted_perm _ _ _))) in H.
      apply unique_In, in_map_iff in H. destruct H as [u [Hu Hin]]. eauto.
    + intros [u [Hu Hd]].
      apply (Permutation_in _ (sorted_perm _ _ _)).
      apply unique_In, in_map_iff. eauto.
Qed.

(** ** Where the widgets of the page come from *)

Section PageStructure.
Variable to_numeric_text : string -> option Z.
Variable tie_order : list BehindRow -> list BehindRow.
Local Abbreviation clean := (clean to_numeric_text).
Local Abbreviation district_section := (district_section tie_order).
Local Abbreviation report := (report to_numeric_text tie_order).
Local Abbreviation main := (main to_numeric_text tie_order).

Lemma page_report_cases (frame : DataFrame) (p : Z) (w : widget) :
  In w (page (report frame p)) ->
  w = st_warning
  \/ exists df,
       snd (clean frame) = Return df
       /\ (In w (page (overall_section df p))
           \/ exists d, In d (districts_of df)
                        /\ In w (page (district_section frame df p d))).
Proof.
  unfold report. intros H.
  apply page_bind in H. destruct H as [H | [df [Hdf H]]].
  { left. now apply page_clean in H. }
  right. exists df. split; [exact Hdf |].
  apply page_bind in H. destruct H as [H | [_ [_ H]]].
  { unfold getitem in H. destruct (has_column frame COL_DISTRICT); destruct H. }
  apply page_bind in H. destruct H as [H | [_ [_ H]]]; [now left |].
  apply page_for_each in H. right. exact H.
Qed.

Lemma page_main_cases (uploaded : option DataFrame) (p : Z) (w : widget) :
  In w (page (main uploaded p)) ->
  w = st_info \/ w = st_warning \/ w = st_sidebar
  \/ (exists e, w = st_error e)
  \/ exists sheet df,
       uploaded = Some sheet
       /\ snd (clean (read_excel sheet)) = Return df
       /\ (In w (page (overall_section df p))
           \/ exists d, In d (districts_of df)
                        /\ In w (page (district_section
                                         (read_excel sheet) df p d))).
Proof.
  intros Hw. destruct uploaded as [sheet |].
  2:{ simpl in Hw. destruct Hw as [<- | []]. now left. }
  unfold main in Hw.
  apply page_bind in Hw. destruct Hw as [Hw | [_ [_ Hw]]].
  2:{ simpl in Hw. destruct Hw as [<- | []]. right. right. now left. }
  apply page_try_except in Hw. destruct Hw as [Hw | Hw].
  2:{ right. right. right. now left. }
  apply page_report_cases in Hw. destruct Hw as [-> | [df [Hdf Hw]]].
  - right. now left.
  - right. right. right. right. exists sheet, df. auto.
Qed.

Lemma overall_section_widgets (df : list Unit) (p : Z) (w : widget) :
  In w (page (overall_section df p)) ->
  In w [ st_header "Overall Summary (All Non-ESS Units)";
         st_metric "Total Units" (unitCount (aggregate df p));
         st_metric "Target Walks" (targetTotal (aggregate df p));
         st_metric "Actual Walks Completed" (actualTotal (aggregate df p));
         st_metric_ratio "Compliance %"
           (actualTotal (aggregate df p)) (targetTotal (aggregate df p));
         st_pyplot (pie "Overall Progress"
                      (actualTotal (aggregate df p))
                      (targetTotal (aggregate df p)));
         st_markdown;
         st_header "District Manager Breakdown" ].
Proof.
  unfold overall_section, st_pyplot_pie.
  destruct (existsb _ _); simpl; intuition.
Qed.

Lemma district_section_widgets (frame : DataFrame) (df : list Unit) (p : Z)
    (d : text) (w : widget) :
  In w (page (district_section frame df p d)) ->
  exists s,
    d = Some s
    /\ let agg := aggregate (group_of df (Some s)) p in
       In w [ st_expander s (unitCount agg) (targetTotal agg) (actualTotal agg);
              st_metric "Units" (unitCount agg);
              st_metric "Target" (targetTotal agg);
              st_metric "Actual" (actualTotal agg);
              st_success;
              st_subheader "Units Behind Target";
              st_dataframe (behind tie_order (group_of df (Some s)) p);
              st_pyplot (pie (if PyStr.contains "-" s
                              then after_last_dash s else s)
                           (actualTotal agg) (targetTotal agg)) ].
Proof.
  clear to_numeric_text.
  destruct d as [s |]; [| intros []].
  intros H. exists s. split; [reflexivity |].
  rewrite district_section_named in H. cbv zeta in *.
  unfold st_pyplot_pie in H.
  destruct (has_column frame COL_TYPE).
  - destruct (behind tie_order (group_of df (Some s)) p) eqn:E;
      destruct (existsb _ _); simpl in H |- *; intuition.
  - simpl in H |- *. intuition.
Qed.

(** Lines 21-22 and 110-114: no exception leaves the script.  Without an
    upload the page is the prompt and the script stops; on an empty result
    it is the warning and the script stops; otherwise the script runs to
    its end, the sidebar text being the last widget, and an error raised
    by the report is shown once, just before it, nothing of the report
    following. *)
Theorem main_outcome (uploaded : option DataFrame) (p : Z) :
  (uploaded = None /\ main uploaded p = ([st_info], Raise StopException))
  \/ main uploaded p = ([st_warning], Raise StopException)
  \/ exists out,
       (forall e, ~ In (st_error e) out)
       /\ (main uploaded p = (out ++ [st_sidebar], Return tt)
           \/ exists e, e <> StopException
                        /\ main uploaded p
                           = (out ++ [st_error e; st_sidebar], Return tt)).
Proof.
  destruct uploaded as [sheet |]; [| left; split; reflexivity].
  right.
  assert (Hnoerr : forall w e, In w (page (report (read_excel sheet) p)) ->
                                w <> st_error e).
  { intros w e Hw ->.
    apply page_report_cases in Hw. destruct Hw as [Hw | [df [_ [Hw | Hw]]]].
    - discriminate.
    - apply overall_section_widgets in Hw. not_on_page Hw.
    - destruct Hw as [d [_ Hw]]. apply district_section_widgets in Hw.
      destruct Hw as [s [_ Hw]]. cbv zeta in Hw. not_on_page Hw. }
  assert (Hstop : snd (report (read_excel sheet) p) = Raise StopException ->
                  report (read_excel sheet) p = ([st_warning], Raise StopException)).
  { unfold report. rewrite clean_eq.
    destruct (has_column (read_excel sheet) COL_WALKS); [| discriminate].
    destruct (has_column (read_excel sheet) COL_UNIT); [| discriminate].
    destruct (has_column (read_excel sheet) COL_SECTOR); [| discriminate].
    destruct (drop_ess _) as [| u df] eqn:Edf; [reflexivity |].
    rewrite bind_return. cbv beta. unfold getitem.
    destruct (has_column (read_excel sheet) COL_DISTRICT); [| discriminate].
    intros H. exfalso. revert H.
    unfold overall_section, st_pyplot_pie.
    destruct (existsb _ _); [discriminate |].
    cbv beta iota delta [bind ret render raise]. cbn [fst snd app].
    generalize (districts_of (u :: df)). intros ds.
    induction ds as [| d ds IH]; [discriminate |].
    cbn [for_each].
    destruct d as [s |]; [| discriminate].
    rewrite district_section_named. cbv zeta. unfold st_pyplot_pie.
    destruct (has_column (read_excel sheet) COL_TYPE); [| discriminate].
    destruct (existsb _ _); [discriminate |].
    cbn [snd page fst render].
    destruct (for_each ds _) as [out' [[] | e']].
    - unfold bind. discriminate.
    - unfold bind. intros H. apply IH. exact H. }
  unfold main.
  destruct (report (read_excel sheet) p) as [out [[] | e]] eqn:Hrep.
  - right. exists out. split.
    + intros e Hin. now apply (Hnoerr (st_error e) e Hin).
    + left. reflexivity.
  - destruct e.
    1-3: right; exists out; split;
      [ intros e' Hin; now apply (Hnoerr (st_error e') e' Hin)
      | right; eexists; split;
        [| unfold try_except, bind, render; cbn [is_Exception];
           rewrite <- app_assoc; reflexivity ]; discriminate ].
    left. specialize (Hstop eq_refl). inversion Hstop. reflexivity.
Qed.
End PageStructure.

(** ** The aggregates on the page *)

Lemma metric_value_In (label : string) (pg : list widget) (v : Z) :
  metric_value label pg = Some v -> In (st_metric label v) pg.
Proof.
  unfold metric_value.
  induction pg as [| w pg IH]; [discriminate |].
  cbn [flat_map].
  destruct w; cbn [app]; try (intros H; right; now apply IH).
  destruct (String.eqb_spec label0 label) as [-> | Hne]; cbn [app].
  - intros H. inversion H. now left.
  - intros H. right. now apply IH.
Qed.

Section OverallAggregate.
Variable to_numeric_text : string -> option Z.
Variable tie_order : list BehindRow -> list BehindRow.
Local Abbreviation clean := (clean to_numeric_text).
Local Abbreviation main := (main to_numeric_text tie_order).

Lemma clean_return (frame : DataFrame) (df : list Unit) :
  snd (clean frame) = Return df ->
  df = retained (clean frame) /\ (1 <= length df)%nat.
Proof.
  unfold retained. intros H. rewrite H. split; [reflexivity |].
  revert H. rewrite clean_eq.
  destruct (has_column frame COL_WALKS); [| discriminate].
  destruct (has_column frame COL_UNIT); [| discriminate].
  destruct (has_column frame COL_SECTOR); [| discriminate].
  destruct (drop_ess _); [discriminate |].
  intros H. inversion H. simpl. lia.
Qed.

(** An overall metric is a metric of the overall section: the district
    sections label theirs otherwise. *)
Lemma overall_metric (uploaded : option DataFrame) (p : Z) (label : string)
    (v : Z) :
  In label ["Total Units"; "Target Walks"; "Actual Walks Completed"] ->
  In (st_metric label v) (page (main uploaded p)) ->
  exists sheet df,
    uploaded = Some sheet
    /\ snd (clean (read_excel sheet)) = Return df
    /\ In (st_metric label v)
         [ st_metric "Total Units" (unitCount (aggregate df p));
           st_metric "Target Walks" (targetTotal (aggregate df p));
           st_metric "Actual Walks Completed" (actualTotal (aggregate df p)) ].
Proof.
  intros Hlabel H. apply page_main_cases in H.
  destruct H as [H | [H | [H | [[e H] | H]]]]; try discriminate.
  destruct H as [sheet [df [-> [Hdf [H | [d [_ H]]]]]]].
  - exists sheet, df. split; [reflexivity |]. split; [exact Hdf |].
    apply overall_section_widgets in H. simpl in H |- *.
    destruct H as [H | [H | [H | [H | H]]]]; try discriminate; auto.
    exfalso. simpl in Hlabel.
    destruct Hlabel as [<- | [<- | [<- | []]]];
      repeat (destruct H as [H | H]; [discriminate |]); destruct H.
  - exfalso. apply district_section_widgets in H.
    destruct H as [s [_ H]]. cbv zeta in H. simpl in H, Hlabel.
    destruct Hlabel as [<- | [<- | [<- | []]]];
      repeat (destruct H as [H | H]; [discriminate |]); destruct H.
Qed.



End OverallAggregate.



(** ** The table of a district section *)

Lemma sorted_nil {A K : Type} (leb : K -> K -> bool) (key : A -> K)
    (l : list A) :
  sorted leb key l = [] -> l = [].
Proof.
  intros H. pose proof (sorted_perm leb key l) as Hp. rewrite H in Hp.
  now apply Permutation_sym, Permutation_nil in Hp.
Qed.

Section OnTarget.
Variable tie_order : list BehindRow -> list BehindRow.
Hypothesis tie_order_perm : forall l, Permutation l (tie_order l).

Lemma behind_nil (group : list Unit) (p : Z) :
  behind tie_order group p = []
  <-> Forall (fun u => p <= Walks_YTD u) group.
Proof.
  unfold behind, sort_values. split.
  - intros H. apply sorted_nil in H.
    pose proof (tie_order_perm
                  (map behind_row
                     (filter (fun u => Walks_YTD u <? p) group))) as Hp.
    rewrite H in Hp. apply Permutation_sym, Permutation_nil in Hp.
    apply map_eq_nil in Hp.
    apply Forall_forall. intros u Hu.
    destruct (Walks_YTD u <? p) eqn:E; [| now apply Z.ltb_ge].
    assert (Hin : In u (filter (fun u => Walks_YTD u <? p) group))
      by (apply filter_In; auto).
    rewrite Hp in Hin. destruct Hin.
  - intros H.
    assert (Hf : filter (fun u => Walks_YTD u <? p) group = []).
    { induction H as [| u l Hu Hl IH]; [reflexivity |].
      cbn [filter]. apply Z.ltb_ge in Hu. now rewrite Hu. }
    rewrite Hf. cbn [map].
    pose proof (tie_order_perm []) as Hp.
    apply Permutation_nil in Hp. now rewrite Hp.
Qed.

Lemma section_table (frame : DataFrame) (df : list Unit) (p : Z)
    (s : string) :
  has_column frame COL_TYPE = true ->
  let pg := page (district_section tie_order frame df p (Some s)) in
  let table := behind tie_order (group_of df (Some s)) p in
  (In st_success pg <-> table = [])
  /\ (forall t, In (st_dataframe t) pg <-> t = table /\ table <> []).
Proof.
  clear tie_order_perm.
  intros Ht. cbv zeta. rewrite district_section_named. cbv zeta.
  rewrite Ht. unfold page, st_pyplot_pie. cbn [fst].
  destruct (behind tie_order (group_of df (Some s)) p) as [| b t] eqn:E;
    destruct (existsb _ _); simpl; (split; [| intros t']); split;
    intuition (try discriminate; try congruence).
Qed.

(** Lines 85-92: in the section of a district, when the unit-type column
    exists, the message that all units are on target is shown exactly when
    every unit of the group has a count of at least the target; otherwise
    the table is shown, and never both. *)
Theorem all_on_target (frame : DataFrame) (df : list Unit) (p : Z)
    (s : string) :
  has_column frame COL_TYPE = true ->
  let pg := page (district_section tie_order frame df p (Some s)) in
  (In st_success pg
   <-> Forall (fun u => p <= Walks_YTD u) (group_of df (Some s)))
  /\ (In (st_dataframe (behind tie_order (group_of df (Some s)) p)) pg
      <-> ~ Forall (fun u => p <= Walks_YTD u) (group_of df (Some s)))
  /\ (In st_success pg -> forall table, ~ In (st_dataframe table) pg).
Proof.
  intros Ht. cbv zeta.
  destruct (section_table frame df p s Ht) as [Hsuccess Htable].
  cbv zeta in Hsuccess, Htable.
  rewrite <- behind_nil, Hsuccess, Htable. split; [tauto |]. split.
  - tauto.
  - intros Hnil table Hin. apply Htable in Hin. tauto.
Qed.
End OnTarget.

Lemma all_on_target_witness :
  In st_success
    (page (district_section input_order (read_excel sheet_spec_example)
             (retained (clean decimal_text (read_excel sheet_spec_example)))
             2 (Some "D1-Smith")))
  <-> Forall (fun u => 2 <= Walks_YTD u)
        (group_of (retained (clean decimal_text (read_excel sheet_spec_example)))
           (Some "D1-Smith")).
Proof.
  apply (all_on_target input_order (fun l => Permutation_refl l)
           (read_excel sheet_spec_example)
           (retained (clean decimal_text (read_excel sheet_spec_example)))
           2 "D1-Smith").
  reflexivity.
Defined.

(** ** The loop over the districts *)

Lemma for_each_raise {A} (pre post : list A) (x : A) (body : A -> script unit)
    (e : exn) :
  (forall y, In y pre -> snd (body y) = Return tt) ->
  snd (body x) = Raise e ->
  for_each (pre ++ x :: post) body
  = (flat_map (fun y => page (body y)) pre ++ page (body x), Raise e).
Proof.
  intros Hpre Hx. induction pre as [| y pre IH]; cbn [app for_each flat_map].
  - destruct (body x) as [out r]. simpl in Hx. subst r. reflexivity.
  - pose proof (Hpre y (or_introl eq_refl)) as Hy.
    destruct (body y) as [out r]. simpl in Hy. subst r.
    rewrite bind_return, IH by (intros z Hz; apply Hpre; now right).
    cbn [fst snd page]. now rewrite app_assoc.
Qed.

Section Loop.
Variable to_numeric_text : string -> option Z.
Variable tie_order : list BehindRow -> list BehindRow.
Local Abbreviation clean := (clean to_numeric_text).
Local Abbreviation district_section := (district_section tie_order).
Local Abbreviation main := (main to_numeric_text tie_order).

(** The script from the loop on, once the normalizer has returned, the
    district column exists and the overall chart is drawn. *)
Lemma main_of_loop (sheet : DataFrame) (p : Z) (df : list Unit) :
  clean (read_excel sheet) = ([], Return df) ->
  has_column sheet COL_DISTRICT = true ->
  Forall (fun u => 0 <= Walks_YTD u) df ->
  1 <= p ->
  main (Some sheet) p
  = try_except
      (page (overall_section df p)
       ++ page (for_each (districts_of df)
                  (district_section (read_excel sheet) df p)),
       snd (for_each (districts_of df)
              (district_section (read_excel sheet) df p))) ;;
    render st_sidebar.
Proof.
  intros Hclean Hd Hwalks Hp.
  assert (Hget : getitem (read_excel sheet) COL_DISTRICT = ret tt).
  { unfold getitem. sheet_columns. now rewrite Hd. }
  assert (Hover : snd (overall_section df p) = Return tt).
  { unfold overall_section.
    destruct (aggregate_nonneg df df p ltac:(lia) Hwalks (incl_refl df))
      as [Ha Htg].
    now rewrite st_pyplot_pie_nonneg. }
  unfold main, report. rewrite Hclean, bind_return. cbv beta. rewrite Hget.
  destruct (overall_section df p) as [out r]. simpl in Hover. subst r.
  destruct (for_each _ _) as [out' r']. reflexivity.
Qed.

Lemma section_returns (frame : DataFrame) (df : list Unit) (p : Z)
    (s : string) :
  has_column frame COL_TYPE = true ->
  Forall (fun u => 0 <= Walks_YTD u) df ->
  1 <= p ->
  snd (district_section frame df p (Some s)) = Return tt.
Proof.
  intros Ht Hwalks Hp. rewrite district_section_named. cbv zeta. rewrite Ht.
  destruct (aggregate_nonneg df (group_of df (Some s)) p ltac:(lia) Hwalks)
    as [Ha Htg]; [apply incl_filter |].
  now rewrite st_pyplot_pie_nonneg.
Qed.

End Loop.

Section LoopStops.
Variable to_numeric_text : string -> option Z.
Variable tie_order : list BehindRow -> list BehindRow.
Local Abbreviation clean := (clean to_numeric_text).
Local Abbreviation district_section := (district_section tie_order).
Local Abbreviation main := (main to_numeric_text tie_order).



End LoopStops.

(** ** The display name of a district *)

Lemma split_pieces_without (sep : ascii) (s : string) :
  Forall (fun w => PyStr.contains sep w = false) (PyStr.split sep s).
Proof.
  induction s as [| a s IH]; cbn [PyStr.split].
  - repeat constructor.
  - destruct (Ascii.eqb a sep) eqn:E.
    + constructor; [reflexivity | exact IH].
    + destruct (PyStr.split sep s) as [| w ws]; [repeat constructor; simpl; now rewrite E |].
      inversion IH as [| ? ? Hw Hws]. subst.
      constructor; [| exact Hws]. simpl. now rewrite E, Hw.
Qed.

Lemma last_Forall {A} (P : A -> Prop) (l : list A) (d : A) :
  P d -> Forall P l -> P (last l d).
Proof.
  intros Hd H. induction H as [| x l Hx Hl IH]; [exact Hd |].
  destruct l; [exact Hx | exact IH].
Qed.

Lemma lstrip_without (c : ascii) (s : string) :
  PyStr.contains c s = false -> PyStr.contains c (PyStr.lstrip s) = false.
Proof.
  induction s as [| a s IH]; [reflexivity |].
  cbn [PyStr.lstrip]. destruct (PyStr.isspace a); [| auto].
  cbn [PyStr.contains]. intros H. apply orb_false_iff in H. now apply IH.
Qed.

Lemma rstrip_without (c : ascii) (s : string) :
  PyStr.contains c s = false -> PyStr.contains c (PyStr.rstrip s) = false.
Proof.
  induction s as [| a s IH]; [reflexivity |].
  cbn [PyStr.contains PyStr.rstrip]. intros H.
  apply orb_false_iff in H. destruct H as [Ha Hs]. specialize (IH Hs).
  destruct (PyStr.rstrip s) as [| b k].
  - destruct (PyStr.isspace a); [reflexivity |]. simpl. now rewrite Ha.
  - cbn [PyStr.contains] in *. now rewrite Ha, IH.
Qed.

Lemma lstrip_first (s : string) (a : ascii) :
  first_char (PyStr.lstrip s) = Some a -> PyStr.isspace a = false.
Proof.
  induction s as [| b s IH]; [discriminate |].
  cbn [PyStr.lstrip]. destruct (PyStr.isspace b) eqn:E; [exact IH |].
  intros H. inversion H. now subst.
Qed.

Lemma rstrip_first (s : string) (a : ascii) :
  first_char (PyStr.rstrip s) = Some a -> first_char s = Some a.
Proof.
  destruct s as [| b s]; [discriminate |].
  cbn [PyStr.rstrip]. destruct (PyStr.rstrip s).
  - destruct (PyStr.isspace b); [discriminate | auto].
  - auto.
Qed.

Lemma rstrip_last (s : string) (a : ascii) :
  last_char (PyStr.rstrip s) = Some a -> PyStr.isspace a = false.
Proof.
  revert a. induction s as [| b s IH]; [discriminate |].
  intros a. cbn [PyStr.rstrip].
  destruct (PyStr.rstrip s) as [| c k] eqn:E.
  - destruct (PyStr.isspace b) eqn:Eb; [discriminate |].
    intros H. inversion H. now subst.
  - cbn [last_char] in *.
    destruct (last_char k) as [z |]; intros H; apply IH; exact H.
Qed.

Lemma lstrip_id (s : string) :
  (forall a, first_char s = Some a -> PyStr.isspace a = false) ->
  PyStr.lstrip s = s.
Proof.
  destruct s as [| b s]; [reflexivity |].
  intros H. cbn [PyStr.lstrip]. now rewrite (H b eq_refl).
Qed.

Lemma rstrip_cons (b : ascii) (s : string) :
  PyStr.rstrip (String b s)
  = match PyStr.rstrip s with
    | EmptyString =>
        if PyStr.isspace b then EmptyString else String b EmptyString
    | kept => String b kept
    end.
Proof. reflexivity. Qed.

Lemma rstrip_idem (s : string) :
  PyStr.rstrip (PyStr.rstrip s) = PyStr.rstrip s.
Proof.
  induction s as [| b s IH]; [reflexivity |].
  rewrite (rstrip_cons b s).
  destruct (PyStr.rstrip s) as [| c k] eqn:E.
  - destruct (PyStr.isspace b) eqn:Eb; [reflexivity |].
    rewrite rstrip_cons. cbn [PyStr.rstrip]. now rewrite Eb.
  - rewrite rstrip_cons, IH. reflexivity.
Qed.

(** Lines 37 and 73, [x.split('-')[-1].strip()]: the name taken from a
    district key holds no dash and neither starts nor ends with white
    space; for a key that ends in a dash, or in a dash followed by white
    space only, it is empty. *)
Theorem display_name_trimmed (s : string) :
  let name := after_last_dash s in
  PyStr.contains "-" name = false
  /\ (forall a, first_char name = Some a -> PyStr.isspace a = false)
  /\ (forall a, last_char name = Some a -> PyStr.isspace a = false)
  /\ PyStr.strip name = name.
Proof.
  cbv zeta. unfold after_last_dash.
  set (piece := last (PyStr.split "-" s) EmptyString).
  assert (Hpiece : PyStr.contains "-" piece = false).
  { apply (last_Forall (fun w => PyStr.contains "-" w = false));
      [reflexivity | apply split_pieces_without]. }
  unfold PyStr.strip. split; [| split; [| split]].
  - now apply rstrip_without, lstrip_without.
  - intros a H. apply rstrip_first in H. now apply lstrip_first in H.
  - intros a H. now apply rstrip_last in H.
  - rewrite (lstrip_id (PyStr.rstrip (PyStr.lstrip piece))).
    + apply rstrip_idem.
    + intros a H. apply rstrip_first in H. now apply lstrip_first in H.
Qed.

Example display_name_samples :
  after_last_dash "D1 - Smith " = "Smith"
  /\ after_last_dash "12-North-East" = "East"
  /\ after_last_dash "D4-" = ""
  /\ after_last_dash "D4- " = "".
Proof. repeat split. Qed.

(** ** The theorems above at sample sheets *)





Lemma sections_in_order_witness :
  exists n,
    expander_names
      (page (main decimal_text input_order (Some sheet_spec_example) 3))
    = firstn n
        (map format_text
           (districts_of
              (retained (clean decimal_text (read_excel sheet_spec_example))))).
Proof.
  apply (sections_in_order decimal_text input_order sheet_spec_example 3
           (retained (clean decimal_text (read_excel sheet_spec_example)))).
  reflexivity.
Defined.

Lemma main_tables_witness :
  exists sheet df s,
    Some sheet_spec_example = Some sheet
    /\ snd (clean decimal_text (read_excel sheet)) = Return df
    /\ In (Some s) (districts_of df)
    /\ [ {| b_unit := Some "U1"; b_type := Some "Retail"; b_walks := 2 |} ]
       = behind input_order (group_of df (Some s)) 3
    /\ [ {| b_unit := Some "U1"; b_type := Some "Retail"; b_walks := 2 |} ]
       <> [].
Proof.
  apply (main_tables decimal_text input_order (Some sheet_spec_example) 3).
  vm_compute. tauto.
Defined.

